(** * v-calendar, [src/use/base.ts]: the base context of the calendar

    A shallow embedding of [createBase] and [useBase]: the computed
    values [locale], [masks], [disabledDates], [availableDates] and
    [disabledAttribute] as functions of the component props, and the
    provide/inject store as a finite map.

    The classes [Locale], [Attribute] and the theme, which [base.ts]
    only imports, are taken as an interface ([External]); the theorems
    hold for every implementation of it, and the examples run on a small
    UTC locale. *)

From Stdlib Require Import ZArith Lia Ascii String List.
From stdpp Require Import base option gmap strings list.

#[local] Open Scope string_scope.
#[local] Open Scope list_scope.
#[local] Open Scope Z_scope.

(** ** JavaScript dates *)

(** A [Date] holds a time value: a whole number of milliseconds since the
    epoch, or NaN for an invalid date.  Numbers that [base.ts] computes
    with are time values plus or minus one second: they stay below 2^53,
    so the arithmetic of doubles is exact on them and a number is modelled
    as [option Z], [None] standing for NaN. *)
Module Date.

Definition number : Type := option Z.

Record t : Type := mk { getTime : number }.

(** The largest time value of ECMAScript, 8.64e15 ms. *)
Definition maxTime : Z := 8640000000000000.

(** [TimeClip] of ECMAScript: NaN outside of the range. *)
Definition timeClip (n : number) : number :=
  match n with
  | Some v => if Z.abs v <=? maxTime then Some v else None
  | None => None
  end.

(** [new Date(n)] for a number [n]. *)
Definition new (n : number) : t := mk (timeClip n).

(** [n + k] on numbers, for a constant [k]; NaN is absorbing. *)
Definition plus (n : number) (k : Z) : number :=
  match n with
  | Some v => Some (v + k)
  | None => None
  end.

(** The valid date of time value [v]. *)
Definition at_ (v : Z) : t := mk (Some v).

(** The invalid date, [new Date(NaN)]. *)
Definition invalid : t := mk None.

(** [a <= b] on numbers: false as soon as one side is NaN. *)
Definition leb (a b : number) : bool :=
  match a, b with
  | Some x, Some y => x <=? y
  | _, _ => false
  end.

End Date.

(** ** Ranges and date specifications *)

(** A range of [disabledDates]: [{ start, end }], where [null] ([None])
    leaves the side open. *)
Record DateRange : Type := mkRange {
  start : option Date.t;
  end_ : option Date.t;
}.

(** One entry of the props [disabledDates] and [availableDates]: a date,
    a date with a time of day, or a range object. *)
Inductive DateSpec : Type :=
  | SpecDate (d : Date.t)
  | SpecDateTime (d : Date.t) (time : string)
  | SpecRange (r : DateRange).

(** Modelled from the spec: membership of an instant in a range, which the
    range class of the repository decides and [src/] does not hold.  Both
    ends are inclusive (the spec's one-second backoff keeps the boundary
    out of the range, so the end itself is in), a [null] end is unbounded,
    and an invalid date bounds nothing: comparisons with NaN are false. *)
Definition rangeIncludes (r : DateRange) (v : Z) : bool :=
  match start r with
  | None => true
  | Some s => Date.leb (Date.getTime s) (Some v)
  end &&
  match end_ r with
  | None => true
  | Some e => Date.leb (Some v) (Date.getTime e)
  end.

(** The instant lies in one range of the list at least. *)
Definition anyIncludes (rs : list DateRange) (v : Z) : bool :=
  existsb (fun r => rangeIncludes r v) rs.

(** The range with both ends open, "all time". *)
Definition isAllTime (r : DateRange) : bool :=
  match start r, end_ r with
  | None, None => true
  | _, _ => false
  end.

(** ** Local time of day *)

Definition msPerSecond : Z := 1000.
Definition msPerDay : Z := 86400000.

(** Time of day, in ms, and day number of the instant [v] on a clock that
    is [offset] ms ahead of UTC. *)
Definition timeOfDay (offset v : Z) : Z := (v + offset) mod msPerDay.
Definition localDay (offset v : Z) : Z := (v + offset) / msPerDay.

(** [HH:MM:SS] as ms after midnight. *)
Definition clock (h m s : Z) : Z := ((h * 60 + m) * 60 + s) * msPerSecond.

(** ** The locale, as [base.ts] uses it *)

(** The methods and the field of a [Locale] instance that [createBase]
    reads.  [normalizeDate d time] is [normalizeDate(d, { time })], with
    [None] for a call without options; [normalizeDates ds isAllDay] is
    [normalizeDates(ds, { isAllDay })], with [None] for an absent prop. *)
Record Locale : Type := mkLocale {
  masks_of : gmap string string;
  normalizeDate : Date.t -> option string -> Date.t;
  normalizeDates : option (list DateSpec) -> bool -> list DateRange;
}.

(** Values of the fields of a plain config object. *)
Inductive value : Type :=
  | VUndefined
  | VBoolean (b : bool)
  | VNumber (n : Z)
  | VString (s : string)
  | VObject (o : gmap string string).

(** The second argument of [new Locale(config, { locales, timezone })]. *)
Record LocaleOptions : Type := mkLocaleOptions {
  opt_locales : gmap string (gmap string value);
  opt_timezone : option string;
}.

(** The first argument of [new Attribute(config, theme, locale)]. *)
Module AttributeConfig.
Record t : Type := mk {
  key : string;
  dates : list DateRange;
  excludeDates : list DateRange;
  excludeMode : string;
  order : Z;
}.
End AttributeConfig.

(** What [base.ts] imports and does not define: the theme, the [Locale]
    and [Attribute] constructors and the table of default locales. *)
Class External : Type := {
  Theme : Type;
  Attribute : Type;
  locales_value : gmap string (gmap string value);
  useTheme : string -> option value -> Theme;
  newLocale : gmap string value -> LocaleOptions -> Locale;
  newAttribute : AttributeConfig.t -> Theme -> Locale -> Attribute;
}.

(** ** Props *)

(** The prop [locale]: a string identifier, a plain config object or a
    [Locale] instance. *)
Inductive LocaleProp : Type :=
  | LocaleId (s : string)
  | LocaleObject (o : gmap string value)
  | LocaleInstance (l : Locale).

(** [BaseProps].  An optional prop that was not passed is [None]
    ([undefined]).  The four boundaries are typed [Date]: a date object is
    truthy also when it is invalid, so a boundary is falsy exactly when it
    is absent. *)
Module Props.
Record t : Type := mk {
  color : string;
  isDark : option value;
  theme : option string;
  locale : option LocaleProp;
  firstDayOfWeek : option Z;
  masks : option (gmap string string);
  timezone : option string;
  minDate : option Date.t;
  minDateExact : option Date.t;
  maxDate : option Date.t;
  maxDateExact : option Date.t;
  disabledDates : option (list DateSpec);
  availableDates : option (list DateSpec);
}.
End Props.

(** The context that [createBase] publishes.  The computed references are
    modelled by the values they hold. *)
Module BaseContext.
Record t `{External} : Type := mk {
  theme : Theme;
  locale : Locale;
  masks : gmap string string;
  disabledDates : list DateRange;
  availableDates : list DateRange;
  disabledAttribute : Attribute;
}.
End BaseContext.

(** ** [createBase] *)

Definition contextKey : string := "__vc_base_context__".

(** A prop that was not passed reads as [undefined] in an object literal. *)
Definition ofOption {A : Type} (f : A -> value) (o : option A) : value :=
  match o with
  | Some a => f a
  | None => VUndefined
  end.

Section CreateBase.

Context `{External}.

Definition theme (props : Props.t) : Theme :=
  useTheme (Props.color props) (Props.isDark props).

(** The object literal [{ id: props.locale, firstDayOfWeek:
    props.firstDayOfWeek, masks: props.masks }]; [l] is the prop
    [locale], a string or [undefined] where the literal is built. *)
Definition propsConfig (l : option LocaleProp) (props : Props.t)
  : gmap string value :=
  {[ "id" := match l with
             | Some (LocaleId s) => VString s
             | _ => VUndefined
             end;
     "firstDayOfWeek" := ofOption VNumber (Props.firstDayOfWeek props);
     "masks" := ofOption VObject (Props.masks props) ]}.

(** [locale]: the prop itself when it is a [Locale] instance, otherwise
    a new locale, from the prop when [isObject] holds of it (a plain
    object) and from the object literal when it does not. *)
Definition locale (props : Props.t) : Locale :=
  match Props.locale props with
  | Some (LocaleInstance l) => l
  | other =>
      let config :=
        match other with
        | Some (LocaleObject o) => o
        | _ => propsConfig other props
        end in
      newLocale config
        {| opt_locales := locales_value;
           opt_timezone := Props.timezone props |}
  end.

Definition masks (props : Props.t) : gmap string string :=
  masks_of (locale props).

(** The constant [end] of the first branch, when the branch is taken:
    [props.minDateExact || props.minDate] is truthy. *)
Definition minBoundary (props : Props.t) : option Date.t :=
  match Props.minDateExact props with
  | Some e => Some (normalizeDate (locale props) e None)
  | None =>
      match Props.minDate props with
      | Some d => Some (normalizeDate (locale props) d (Some "00:00:00"))
      | None => None
      end
  end.

(** The constant [start] of the second branch, when it is taken. *)
Definition maxBoundary (props : Props.t) : option Date.t :=
  match Props.maxDateExact props with
  | Some e => Some (normalizeDate (locale props) e None)
  | None =>
      match Props.maxDate props with
      | Some d => Some (normalizeDate (locale props) d (Some "23:59:59"))
      | None => None
      end
  end.

(** [new Date(d.getTime() + k)]. *)
Definition shift (d : Date.t) (k : Z) : Date.t :=
  Date.new (Date.plus (Date.getTime d) k).

(** The two pushed objects. *)
Definition minRange (m : Date.t) : DateRange :=
  {| start := None; end_ := Some (shift m (- 1000)) |}.

Definition maxRange (x : Date.t) : DateRange :=
  {| start := Some (shift x 1000); end_ := None |}.

(** [dates.push(r)] when the branch of the boundary [b] is taken. *)
Definition pushWhen (b : option Date.t) (r : Date.t -> DateRange)
    (dates : list DateRange) : list DateRange :=
  match b with
  | Some d => dates ++ [r d]
  | None => dates
  end.

(** [disabledDates].  The array that [normalizeDates] returns is the one
    that is pushed to and returned; it is taken to be a new array at
    every call, as a list is. *)
Definition disabledDates (props : Props.t) : list DateRange :=
  let dates := normalizeDates (locale props) (Props.disabledDates props) true in
  let dates := pushWhen (minBoundary props) minRange dates in
  let dates := pushWhen (maxBoundary props) maxRange dates in
  dates.

Definition availableDates (props : Props.t) : list DateRange :=
  normalizeDates (locale props) (Props.availableDates props) false.

(** The object literal passed to [new Attribute]. *)
Definition disabledAttributeConfig (props : Props.t) : AttributeConfig.t :=
  {| AttributeConfig.key := "disabled";
     AttributeConfig.dates := disabledDates props;
     AttributeConfig.excludeDates := availableDates props;
     AttributeConfig.excludeMode := "includes";
     AttributeConfig.order := 100 |}.

Definition disabledAttribute (props : Props.t) : Attribute :=
  newAttribute (disabledAttributeConfig props) (theme props) (locale props).

Definition context (props : Props.t) : BaseContext.t :=
  {| BaseContext.theme := theme props;
     BaseContext.locale := locale props;
     BaseContext.masks := masks props;
     BaseContext.disabledDates := disabledDates props;
     BaseContext.availableDates := availableDates props;
     BaseContext.disabledAttribute := disabledAttribute props |}.

(** The values provided to a component by its ancestors, by key: what
    [inject] sees in it. *)
Definition provides : Type := gmap string BaseContext.t.

Definition provide (k : string) (c : BaseContext.t) (p : provides) : provides :=
  <[k := c]> p.

(** [inject(key)]: the value provided under the key, or [undefined]. *)
Definition inject (k : string) (p : provides) : option BaseContext.t :=
  p !! k.

(** [createBase(props, ctx)]: the context, and the store of the
    descendants after [provide(contextKey, context)]. *)
Definition createBase (props : Props.t) (p : provides)
  : BaseContext.t * provides :=
  (context props, provide contextKey (context props) p).

(** ** [useBase] *)

Definition missingContext : string :=
  "Base context missing. Please verify this component is nested within a valid context provider.".

(** [useBase()]: [inr msg] is [throw new Error(msg)].  A context is an
    object, so [if (context)] fails exactly on [undefined]. *)
Definition useBase (p : provides) : BaseContext.t + string :=
  match inject contextKey p with
  | Some context => inl context
  | None => inr missingContext
  end.

End CreateBase.

(** ** The parts of the result, in the spec's words *)

Section Synthesized.

Context `{External}.

(** A boundary side is present: the condition of its branch. *)
Definition minPresent (props : Props.t) : bool :=
  bool_decide (is_Some (Props.minDateExact props))
  || bool_decide (is_Some (Props.minDate props)).

Definition maxPresent (props : Props.t) : bool :=
  bool_decide (is_Some (Props.maxDateExact props))
  || bool_decide (is_Some (Props.maxDate props)).

(** [synthesizedMinRange?] and [synthesizedMaxRange?]: no range or one. *)
Definition synthesizedMinRange (props : Props.t) : list DateRange :=
  match minBoundary props with
  | Some m => [minRange m]
  | None => []
  end.

Definition synthesizedMaxRange (props : Props.t) : list DateRange :=
  match maxBoundary props with
  | Some x => [maxRange x]
  | None => []
  end.

(** The user entries of [disabledDates], normalized as all-day. *)
Definition normalizedDisabled (props : Props.t) : list DateRange :=
  normalizeDates (locale props) (Props.disabledDates props) true.

End Synthesized.

(** ** Props with some fields replaced *)

Definition withMinDate (o : option Date.t) (p : Props.t) : Props.t :=
  Props.mk (Props.color p) (Props.isDark p) (Props.theme p) (Props.locale p)
    (Props.firstDayOfWeek p) (Props.masks p) (Props.timezone p)
    o (Props.minDateExact p) (Props.maxDate p) (Props.maxDateExact p)
    (Props.disabledDates p) (Props.availableDates p).

Definition withMaxDate (o : option Date.t) (p : Props.t) : Props.t :=
  Props.mk (Props.color p) (Props.isDark p) (Props.theme p) (Props.locale p)
    (Props.firstDayOfWeek p) (Props.masks p) (Props.timezone p)
    (Props.minDate p) (Props.minDateExact p) o (Props.maxDateExact p)
    (Props.disabledDates p) (Props.availableDates p).

Definition withFirstDayOfWeek (o : option Z) (p : Props.t) : Props.t :=
  Props.mk (Props.color p) (Props.isDark p) (Props.theme p) (Props.locale p)
    o (Props.masks p) (Props.timezone p)
    (Props.minDate p) (Props.minDateExact p) (Props.maxDate p)
    (Props.maxDateExact p) (Props.disabledDates p) (Props.availableDates p).

Definition withMasks (o : option (gmap string string)) (p : Props.t) : Props.t :=
  Props.mk (Props.color p) (Props.isDark p) (Props.theme p) (Props.locale p)
    (Props.firstDayOfWeek p) o (Props.timezone p)
    (Props.minDate p) (Props.minDateExact p) (Props.maxDate p)
    (Props.maxDateExact p) (Props.disabledDates p) (Props.availableDates p).

Definition withTimezone (o : option string) (p : Props.t) : Props.t :=
  Props.mk (Props.color p) (Props.isDark p) (Props.theme p) (Props.locale p)
    (Props.firstDayOfWeek p) (Props.masks p) o
    (Props.minDate p) (Props.minDateExact p) (Props.maxDate p)
    (Props.maxDateExact p) (Props.disabledDates p) (Props.availableDates p).

(** ** A locale on UTC, for the examples *)

Module Utc.

Definition digit (a : ascii) : option Z :=
  let n := Z.of_nat (nat_of_ascii a) - 48 in
  if (0 <=? n) && (n <=? 9) then Some n else None.

Definition twoDigits (a b : ascii) : option Z :=
  match digit a, digit b with
  | Some x, Some y => Some (10 * x + y)
  | _, _ => None
  end.

(** ["HH:MM:SS"] as ms after midnight. *)
Definition parseTime (s : string) : option Z :=
  match s with
  | String h1 (String h2 (String ":" (String m1 (String m2
      (String ":" (String s1 (String s2 EmptyString))))))) =>
      match twoDigits h1 h2, twoDigits m1 m2, twoDigits s1 s2 with
      | Some h, Some m, Some s => Some (clock h m s)
      | _, _, _ => None
      end
  | _ => None
  end.

Definition startOfDay (v : Z) : Z := v - v mod msPerDay.
Definition endOfDay (v : Z) : Z := startOfDay v + (msPerDay - 1).

Definition onTime (f : Z -> Z) (d : Date.t) : Date.t :=
  match Date.getTime d with
  | Some v => Date.new (Some (f v))
  | None => Date.invalid
  end.

(** Modelled from the spec: [normalizeDate] of the locale class, which
    [src/] does not hold.  A date resolves to its own instant; a time
    of day, when supplied, is applied to the day of the date. *)
Definition normalizeDate (d : Date.t) (time : option string) : Date.t :=
  match time with
  | None => onTime (fun v => v) d
  | Some s =>
      match parseTime s with
      | Some tod => onTime (fun v => startOfDay v + tod) d
      | None => Date.invalid
      end
  end.

Definition normalizeSpec (isAllDay : bool) (s : DateSpec) : DateRange :=
  let r :=
    match s with
    | SpecDate d => mkRange (Some d) (Some d)
    | SpecDateTime d time =>
        mkRange (Some (normalizeDate d (Some time)))
                (Some (normalizeDate d (Some time)))
    | SpecRange r => r
    end in
  if isAllDay
  then mkRange (onTime startOfDay <$> start r) (onTime endOfDay <$> end_ r)
  else r.

(** Modelled from the spec: [normalizeDates] of the locale class, which
    [src/] does not hold.  An absent list gives the empty list; every
    entry gives one range, snapped to the start and the end of the day
    when [isAllDay] holds and left as it is otherwise. *)
Definition normalizeDates (ds : option (list DateSpec)) (isAllDay : bool)
  : list DateRange :=
  match ds with
  | Some l => List.map (normalizeSpec isAllDay) l
  | None => []
  end.

Definition locale : Locale :=
  mkLocale ∅ normalizeDate normalizeDates.

(** The imports of [base.ts], with this locale for every config. *)
Definition external : External :=
  {| Theme := string;
     Attribute := AttributeConfig.t;
     locales_value := ∅;
     useTheme := fun color _ => color;
     newLocale := fun _ _ => locale;
     newAttribute := fun config _ _ => config |}.

(** Props with nothing passed but the colour. *)
Definition noProps : Props.t :=
  Props.mk "blue" None None None None None None None None None None None None.

(** Props with the four boundaries and the two lists of dates. *)
Definition boundaries (minDate minDateExact maxDate maxDateExact : option Date.t)
    (disabled available : option (list DateSpec)) : Props.t :=
  Props.mk "blue" None None None None None None
    minDate minDateExact maxDate maxDateExact disabled available.

(** 2024-03-10T00:00:00Z, day 19792 of the epoch. *)
Definition mar10 : Z := 19792 * msPerDay.

(** A time of day on 2024-03-10, UTC. *)
Definition mar10At (h m s ms : Z) : Date.t :=
  Date.at_ (mar10 + clock h m s + ms).

(** A locale instance of the caller's own. *)
Definition custom : Locale :=
  mkLocale {[ "title" := "MMMM YYYY" ]} normalizeDate normalizeDates.

End Utc.

(** * Properties *)

Section Properties.

Context `{External}.

Implicit Types (props : Props.t) (d m x : Date.t) (v w k : Z).

(** ** Dates, shifts and membership *)

Lemma timeClip_in_range v :
  - Date.maxTime <= v <= Date.maxTime ->
  Date.timeClip (Some v) = Some v.
Proof.
  intros Hv. unfold Date.timeClip.
  destruct (Z.leb_spec (Z.abs v) Date.maxTime) as [_ | Hlt]; [done | lia].
Qed.

Lemma timeClip_cases v :
  Date.timeClip (Some v) = Some v \/ Date.timeClip (Some v) = None.
Proof. unfold Date.timeClip. destruct (Z.abs v <=? Date.maxTime); auto. Qed.

Lemma shift_valid d v k :
  Date.getTime d = Some v ->
  - Date.maxTime <= v + k <= Date.maxTime ->
  shift d k = Date.at_ (v + k).
Proof.
  intros Hd Hk. unfold shift, Date.new, Date.at_. rewrite Hd. cbn [Date.plus].
  by rewrite timeClip_in_range.
Qed.

Lemma shift_invalid d k : Date.getTime d = None -> shift d k = Date.invalid.
Proof. intros Hd. unfold shift. by rewrite Hd. Qed.

Lemma shift_cases d v k :
  Date.getTime d = Some v ->
  Date.getTime (shift d k) = Some (v + k) \/ Date.getTime (shift d k) = None.
Proof.
  intros Hd. unfold shift. rewrite Hd. cbn [Date.plus Date.new Date.getTime].
  apply timeClip_cases.
Qed.

Lemma minRange_includes m vm v :
  Date.getTime (shift m (- 1000)) = Some (vm - 1000) ->
  rangeIncludes (minRange m) v = bool_decide (v <= vm - 1000).
Proof.
  intros Hs. unfold rangeIncludes, minRange. cbn [start end_ andb].
  rewrite Hs. cbn [Date.leb].
  destruct (Z.leb_spec v (vm - 1000)); symmetry;
    [by apply bool_decide_eq_true_2 | apply bool_decide_eq_false_2; lia].
Qed.

Lemma maxRange_includes x vx v :
  Date.getTime (shift x 1000) = Some (vx + 1000) ->
  rangeIncludes (maxRange x) v = bool_decide (vx + 1000 <= v).
Proof.
  intros Hs. unfold rangeIncludes, maxRange. cbn [start end_].
  rewrite Hs, andb_true_r. cbn [Date.leb].
  destruct (Z.leb_spec (vx + 1000) v); symmetry;
    [by apply bool_decide_eq_true_2 | apply bool_decide_eq_false_2; lia].
Qed.

(** The boundary instant is out of the range of its own side. *)
Lemma minRange_excludes m v :
  Date.getTime m = Some v -> rangeIncludes (minRange m) v = false.
Proof.
  intros Hm. unfold rangeIncludes, minRange. cbn [start end_ andb].
  destruct (shift_cases m v (- 1000) Hm) as [-> | ->]; cbn [Date.leb]; [| done].
  apply Z.leb_gt. lia.
Qed.

Lemma maxRange_excludes x v :
  Date.getTime x = Some v -> rangeIncludes (maxRange x) v = false.
Proof.
  intros Hx. unfold rangeIncludes, maxRange. cbn [start end_].
  rewrite andb_true_r.
  destruct (shift_cases x v 1000 Hx) as [-> | ->]; cbn [Date.leb]; [| done].
  apply Z.leb_gt. lia.
Qed.

Lemma maxRange_excludes_before x vx v :
  Date.getTime x = Some vx -> v < vx + 1000 ->
  rangeIncludes (maxRange x) v = false.
Proof.
  intros Hx Hv. unfold rangeIncludes, maxRange. cbn [start end_].
  rewrite andb_true_r.
  destruct (shift_cases x vx 1000 Hx) as [-> | ->]; cbn [Date.leb]; [| done].
  apply Z.leb_gt. lia.
Qed.

Lemma minRange_excludes_after m vm v :
  Date.getTime m = Some vm -> vm - 1000 < v ->
  rangeIncludes (minRange m) v = false.
Proof.
  intros Hm Hv. unfold rangeIncludes, minRange. cbn [start end_ andb].
  destruct (shift_cases m vm (- 1000) Hm) as [-> | ->]; cbn [Date.leb]; [| done].
  apply Z.leb_gt. lia.
Qed.

(** ** Time of day around midnight *)

Lemma second_before_midnight offset v :
  timeOfDay offset v = 0 ->
  timeOfDay offset (v - 1000) = clock 23 59 59
  /\ localDay offset (v - 1000) = localDay offset v - 1.
Proof.
  unfold timeOfDay, localDay, clock, msPerSecond, msPerDay. intros Hv.
  Z.div_mod_to_equations. lia.
Qed.

Lemma second_after_day_end offset v :
  timeOfDay offset v = clock 23 59 59 ->
  timeOfDay offset (v + 1000) = 0
  /\ localDay offset (v + 1000) = localDay offset v + 1.
Proof.
  unfold timeOfDay, localDay, clock, msPerSecond, msPerDay. intros Hv.
  Z.div_mod_to_equations. lia.
Qed.

(** ** The shape of [disabledDates] *)

Lemma pushWhen_app (b : option Date.t) (r : Date.t -> DateRange)
    (dates : list DateRange) :
  pushWhen b r dates = dates ++ match b with Some d => [r d] | None => [] end.
Proof. destruct b; cbn [pushWhen]; [done | by rewrite app_nil_r]. Qed.

Lemma disabledDates_app props :
  disabledDates props
  = normalizedDisabled props
    ++ synthesizedMinRange props ++ synthesizedMaxRange props.
Proof.
  unfold disabledDates, synthesizedMinRange, synthesizedMaxRange,
    normalizedDisabled.
  by rewrite !pushWhen_app, <- app_assoc.
Qed.

Lemma minBoundary_present props :
  minPresent props = true <-> is_Some (minBoundary props).
Proof.
  unfold minPresent, minBoundary.
  destruct (Props.minDateExact props), (Props.minDate props); cbn;
    split; intros Hp; try done; by eexists.
Qed.

Lemma maxBoundary_present props :
  maxPresent props = true <-> is_Some (maxBoundary props).
Proof.
  unfold maxPresent, maxBoundary.
  destruct (Props.maxDateExact props), (Props.maxDate props); cbn;
    split; intros Hp; try done; by eexists.
Qed.

Lemma synthesizedMinRange_length props :
  length (synthesizedMinRange props) = if minPresent props then 1%nat else 0%nat.
Proof.
  unfold synthesizedMinRange, minPresent, minBoundary.
  by destruct (Props.minDateExact props), (Props.minDate props).
Qed.

Lemma synthesizedMaxRange_length props :
  length (synthesizedMaxRange props) = if maxPresent props then 1%nat else 0%nat.
Proof.
  unfold synthesizedMaxRange, maxPresent, maxBoundary.
  by destruct (Props.maxDateExact props), (Props.maxDate props).
Qed.

Lemma anyIncludes_app (rs rs' : list DateRange) v :
  anyIncludes (rs ++ rs') v = anyIncludes rs v || anyIncludes rs' v.
Proof. apply existsb_app. Qed.

(** ** The claims on [disabledDates] *)

(** C7. [disabledDates] is the normalized user entries, then the range
    of the minimum side, then the range of the maximum side; each side
    adds one range when its boundary is present and none when it is
    absent, so the length is the number of user entries plus zero, one
    or two, and with no boundary nothing is appended. *)
Theorem disabledDates_append_order props :
  disabledDates props
  = normalizedDisabled props
    ++ synthesizedMinRange props ++ synthesizedMaxRange props
  /\ length (synthesizedMinRange props)
     = (if minPresent props then 1 else 0)%nat
  /\ length (synthesizedMaxRange props)
     = (if maxPresent props then 1 else 0)%nat
  /\ length (disabledDates props)
     = (length (normalizedDisabled props)
        + (if minPresent props then 1 else 0)
        + (if maxPresent props then 1 else 0))%nat
  /\ (minPresent props = false -> maxPresent props = false ->
      disabledDates props = normalizedDisabled props).
Proof.
  pose proof (disabledDates_app props) as Happ.
  pose proof (synthesizedMinRange_length props) as Hmin.
  pose proof (synthesizedMaxRange_length props) as Hmax.
  repeat split; try done.
  - rewrite Happ, !length_app, Hmin, Hmax. lia.
  - intros Hn Hx. rewrite Hn in Hmin. rewrite Hx in Hmax.
    apply nil_length_inv in Hmin, Hmax.
    by rewrite Happ, Hmin, Hmax, app_nil_r.
Qed.


(** C2. When a maximum boundary is present, one range is appended for
    it, [{ start: x + 1 second, end: null }], where [x] is the exact
    maximum resolved without a time, or else the plain maximum resolved
    with the time 23:59:59.  For [maxDateExact = T], which the locale
    resolves to its own instant, the range starts at [T + 1s]. *)
Theorem maxBoundary_range props :
  maxPresent props = true ->
  exists x,
    maxBoundary props = Some x
    /\ (forall e, Props.maxDateExact props = Some e ->
          x = normalizeDate (locale props) e None)
    /\ (forall d, Props.maxDateExact props = None ->
          Props.maxDate props = Some d ->
          x = normalizeDate (locale props) d (Some "23:59:59"))
    /\ synthesizedMaxRange props
       = [ {| start := Some (shift x 1000); end_ := None |} ]
    /\ disabledDates props
       = normalizedDisabled props
         ++ synthesizedMinRange props
         ++ [ {| start := Some (shift x 1000); end_ := None |} ]
    /\ (forall v, Date.getTime x = Some v ->
          rangeIncludes
            {| start := Some (shift x 1000); end_ := None |} v = false
          /\ (- Date.maxTime <= v <= Date.maxTime - 1000 ->
              shift x 1000 = Date.at_ (v + 1000)
              /\ forall offset, timeOfDay offset v = clock 23 59 59 ->
                   timeOfDay offset (v + 1000) = 0
                   /\ localDay offset (v + 1000) = localDay offset v + 1))
    /\ (forall T v, Props.maxDateExact props = Some T ->
          Date.getTime (normalizeDate (locale props) T None) = Date.getTime T ->
          Date.getTime T = Some v ->
          - Date.maxTime <= v <= Date.maxTime - 1000 ->
          synthesizedMaxRange props
          = [ {| start := Some (Date.at_ (v + 1000)); end_ := None |} ]).
Proof.
  intros Hp. apply maxBoundary_present in Hp as [x Hx]. exists x.
  assert (Hsyn : synthesizedMaxRange props = [maxRange x])
    by (unfold synthesizedMaxRange; by rewrite Hx).
  split; [done |]. split; [| split; [| split; [| split; [| split]]]].
  - intros e He. unfold maxBoundary in Hx. rewrite He in Hx. congruence.
  - intros d He Hd. unfold maxBoundary in Hx. rewrite He, Hd in Hx. congruence.
  - exact Hsyn.
  - by rewrite disabledDates_app, Hsyn.
  - intros v Hv. split; [by apply maxRange_excludes |].
    intros Hr. split.
    + apply shift_valid; [done | lia].
    + intros offset. apply second_after_day_end.
  - intros T v HT Hsame Hv Hr. rewrite Hsyn.
    unfold maxBoundary in Hx. rewrite HT in Hx. injection Hx as <-.
    unfold maxRange.
    rewrite (shift_valid _ v 1000); [done | congruence | lia].
Qed.

(** C3. When the exact and the plain variant of a side are both
    supplied, the range that [disabledDates] holds for the side is the one
    of the exact variant, resolved by a call without a time: it follows
    the user entries (and the range of the minimum, for the maximum), and
    with both sides so supplied the list is the user entries and the two
    ranges of the exact variants.  The plain variant is not read:
    replacing or removing it leaves [disabledDates] as it is. *)
Theorem exact_variant_takes_precedence props :
  (forall e d,
      Props.minDateExact props = Some e -> Props.minDate props = Some d ->
      minBoundary props = Some (normalizeDate (locale props) e None)
      /\ synthesizedMinRange props
         = [ {| start := None;
                end_ := Some (shift (normalizeDate (locale props) e None)
                                    (- 1000)) |} ]
      /\ (forall o, disabledDates (withMinDate o props) = disabledDates props)
      /\ disabledDates props
         = normalizeDates (locale props) (Props.disabledDates props) true
           ++ [ {| start := None;
                   end_ := Some (shift (normalizeDate (locale props) e None)
                                       (- 1000)) |} ]
           ++ synthesizedMaxRange props)
  /\ (forall e d,
      Props.maxDateExact props = Some e -> Props.maxDate props = Some d ->
      maxBoundary props = Some (normalizeDate (locale props) e None)
      /\ synthesizedMaxRange props
         = [ {| start := Some (shift (normalizeDate (locale props) e None)
                                     1000);
                end_ := None |} ]
      /\ (forall o, disabledDates (withMaxDate o props) = disabledDates props)
      /\ disabledDates props
         = normalizeDates (locale props) (Props.disabledDates props) true
           ++ synthesizedMinRange props
           ++ [ {| start := Some (shift (normalizeDate (locale props) e None)
                                        1000);
                   end_ := None |} ])
  /\ (forall e d e' d',
      Props.minDateExact props = Some e -> Props.minDate props = Some d ->
      Props.maxDateExact props = Some e' -> Props.maxDate props = Some d' ->
      forall o o',
        disabledDates (withMinDate o (withMaxDate o' props))
        = normalizeDates (locale props) (Props.disabledDates props) true
          ++ [ {| start := None;
                  end_ := Some (shift (normalizeDate (locale props) e None)
                                      (- 1000)) |};
               {| start := Some (shift (normalizeDate (locale props) e' None)
                                       1000);
                  end_ := None |} ]).
Proof.
  split; [| split].
  - intros e d He Hd.
    assert (Hm : minBoundary props = Some (normalizeDate (locale props) e None))
      by (unfold minBoundary; by rewrite He).
    split; [done |]. split; [| split].
    + unfold synthesizedMinRange. by rewrite Hm.
    + intros o. unfold disabledDates, minBoundary, maxBoundary, locale.
      cbn [withMinDate Props.minDateExact Props.minDate Props.maxDateExact
           Props.maxDate Props.locale Props.timezone Props.disabledDates].
      by rewrite He.
    + rewrite disabledDates_app. unfold synthesizedMinRange, normalizedDisabled.
      by rewrite Hm.
  - intros e d He Hd.
    assert (Hx : maxBoundary props = Some (normalizeDate (locale props) e None))
      by (unfold maxBoundary; by rewrite He).
    split; [done |]. split; [| split].
    + unfold synthesizedMaxRange. by rewrite Hx.
    + intros o. unfold disabledDates, minBoundary, maxBoundary, locale.
      cbn [withMaxDate Props.minDateExact Props.minDate Props.maxDateExact
           Props.maxDate Props.locale Props.timezone Props.disabledDates].
      by rewrite He.
    + rewrite disabledDates_app. unfold synthesizedMaxRange, normalizedDisabled.
      by rewrite Hx.
  - intros e d e' d' He Hd He' Hd' o o'.
    unfold disabledDates, minBoundary, maxBoundary, locale.
    cbn [withMinDate withMaxDate Props.minDateExact Props.minDate
         Props.maxDateExact Props.maxDate Props.locale Props.timezone
         Props.disabledDates].
    rewrite He, He'. cbn [pushWhen]. by rewrite <- app_assoc.
Qed.

(** C4. With the four boundary props absent, [disabledDates] is the
    normalized prop and nothing is synthesized; when the prop is absent
    too, and the locale gives the empty list for an absent prop, the list
    and the dates of the disabled attribute are empty: no instant is
    disabled, and no range is the all-time range. *)
Theorem no_boundary_no_synthesized_range props :
  Props.minDate props = None -> Props.minDateExact props = None ->
  Props.maxDate props = None -> Props.maxDateExact props = None ->
  disabledDates props
  = normalizeDates (locale props) (Props.disabledDates props) true
  /\ synthesizedMinRange props ++ synthesizedMaxRange props = []
  /\ (normalizeDates (locale props) None true = [] ->
      Props.disabledDates props = None ->
      disabledDates props = []
      /\ AttributeConfig.dates (disabledAttributeConfig props) = []
      /\ BaseContext.disabledDates (context props) = []
      /\ existsb isAllTime (AttributeConfig.dates (disabledAttributeConfig props))
         = false
      /\ forall v,
           anyIncludes (AttributeConfig.dates (disabledAttributeConfig props)) v
           = false).
Proof.
  intros Hmin Hmine Hmax Hmaxe.
  assert (Hd : disabledDates props
               = normalizeDates (locale props) (Props.disabledDates props) true).
  { unfold disabledDates, minBoundary, maxBoundary.
    by rewrite Hmin, Hmine, Hmax, Hmaxe. }
  split; [done |]. split.
  - unfold synthesizedMinRange, synthesizedMaxRange, minBoundary, maxBoundary.
    by rewrite Hmin, Hmine, Hmax, Hmaxe.
  - intros Hcontract Habsent.
    assert (He : disabledDates props = [])
      by (by rewrite Hd, Habsent).
    cbn [disabledAttributeConfig AttributeConfig.dates context
         BaseContext.disabledDates].
    by rewrite He.
Qed.

(** C5. [availableDates] is the normalized prop with the all-day flag
    off, also in the published context; a range entry that the locale
    leaves as it is when the flag is off is in the list with its own
    start and end, and the boundary props add nothing to the list. *)
Theorem availableDates_all_day_off props :
  availableDates props
  = normalizeDates (locale props) (Props.availableDates props) false
  /\ BaseContext.availableDates (context props)
     = normalizeDates (locale props) (Props.availableDates props) false
  /\ (forall ds r,
        (forall ds' r', In (SpecRange r') ds' ->
           In r' (normalizeDates (locale props) (Some ds') false)) ->
        Props.availableDates props = Some ds ->
        In (SpecRange r) ds ->
        In r (availableDates props))
  /\ (forall o, availableDates (withMinDate o props) = availableDates props)
  /\ (forall o, availableDates (withMaxDate o props) = availableDates props).
Proof.
  repeat split; try done.
  intros ds r Hcontract Hds Hin. unfold availableDates. rewrite Hds.
  by apply Hcontract.
Qed.

(** C6. The disabled attribute is built from the config with the key
    ["disabled"], [dates] the published [disabledDates], [excludeDates]
    the published [availableDates], [excludeMode] the constant
    ["includes"] and [order] the constant 100, whatever the props. *)
Theorem disabledAttribute_config props :
  disabledAttribute props
  = newAttribute
      {| AttributeConfig.key := "disabled";
         AttributeConfig.dates := BaseContext.disabledDates (context props);
         AttributeConfig.excludeDates :=
           BaseContext.availableDates (context props);
         AttributeConfig.excludeMode := "includes";
         AttributeConfig.order := 100 |}
      (theme props) (locale props)
  /\ BaseContext.disabledAttribute (context props) = disabledAttribute props
  /\ AttributeConfig.dates (disabledAttributeConfig props) = disabledDates props
  /\ AttributeConfig.excludeDates (disabledAttributeConfig props)
     = availableDates props
  /\ AttributeConfig.excludeMode (disabledAttributeConfig props) = "includes"
  /\ AttributeConfig.order (disabledAttributeConfig props) = 100.
Proof. by repeat split. Qed.

(** C8, as the code has it.  With both boundaries present, at valid
    instants [vm] and [vx] whose shifted seconds are representable, the
    instants in neither synthesized range are those strictly between
    [vm - 1s] and [vx + 1s]; so the two ranges cover every instant
    exactly when [vm] is later than [vx] by 1999 ms or more. *)
Theorem inverted_boundaries_cover_from_1999ms props m x vm vx :
  minBoundary props = Some m -> maxBoundary props = Some x ->
  Date.getTime m = Some vm -> Date.getTime x = Some vx ->
  - Date.maxTime + 1000 <= vm <= Date.maxTime ->
  - Date.maxTime <= vx <= Date.maxTime - 1000 ->
  synthesizedMinRange props ++ synthesizedMaxRange props
  = [minRange m; maxRange x]
  /\ (forall v, anyIncludes [minRange m; maxRange x] v = false
                <-> vm - 1000 < v < vx + 1000)
  /\ ((forall v, - Date.maxTime <= v <= Date.maxTime ->
                 anyIncludes [minRange m; maxRange x] v = true)
      <-> vx + 1999 <= vm).
Proof.
  intros Hm Hx Hvm Hvx Hrm Hrx.
  assert (Hsm : Date.getTime (shift m (- 1000)) = Some (vm - 1000)).
  { rewrite (shift_valid m vm (- 1000)); [done | done | lia]. }
  assert (Hsx : Date.getTime (shift x 1000) = Some (vx + 1000)).
  { rewrite (shift_valid x vx 1000); [done | done | lia]. }
  assert (Hany : forall v, anyIncludes [minRange m; maxRange x] v
                           = bool_decide (v <= vm - 1000)
                             || bool_decide (vx + 1000 <= v)).
  { intros v. unfold anyIncludes. cbn [existsb].
    by rewrite (minRange_includes m vm v Hsm), (maxRange_includes x vx v Hsx),
      orb_false_r. }
  split; [| split].
  - unfold synthesizedMinRange, synthesizedMaxRange. by rewrite Hm, Hx.
  - intros v. rewrite Hany, orb_false_iff, !bool_decide_eq_false. lia.
  - split.
    + intros Hall. specialize (Hall (vm - 999)). rewrite Hany in Hall.
      apply Z.nlt_ge. intros Hlt.
      assert (Hin : - Date.maxTime <= vm - 999 <= Date.maxTime) by lia.
      apply Hall in Hin. apply orb_true_iff in Hin as [Hin | Hin];
        apply bool_decide_eq_true in Hin; lia.
    + intros Hgap v _. rewrite Hany. apply orb_true_iff.
      destruct (Z.le_gt_cases v (vm - 1000)) as [Hle | Hgt].
      * left. by apply bool_decide_eq_true.
      * right. apply bool_decide_eq_true. lia.
Qed.

(** ** The locale *)

(** C10. A [Locale] instance passed as the prop [locale] is the locale,
    and [firstDayOfWeek], [masks] and [timezone] are not read; a plain
    object is the config of the new locale as it is, and
    [firstDayOfWeek] and [masks] are not read; with a string or no prop
    the config is built from the string and the two props. *)
Theorem locale_prop_cases props :
  (forall l, Props.locale props = Some (LocaleInstance l) ->
     locale props = l
     /\ forall fd mk tz,
          locale (withFirstDayOfWeek fd (withMasks mk (withTimezone tz props)))
          = l)
  /\ (forall o, Props.locale props = Some (LocaleObject o) ->
     locale props
     = newLocale o {| opt_locales := locales_value;
                      opt_timezone := Props.timezone props |}
     /\ forall fd mk,
          locale (withFirstDayOfWeek fd (withMasks mk props)) = locale props)
  /\ (forall i : option string,
     Props.locale props = LocaleId <$> i ->
     exists config : gmap string value,
       locale props
       = newLocale config {| opt_locales := locales_value;
                             opt_timezone := Props.timezone props |}
       /\ config !! "id" = Some (ofOption VString i)
       /\ config !! "firstDayOfWeek"
          = Some (ofOption VNumber (Props.firstDayOfWeek props))
       /\ config !! "masks" = Some (ofOption VObject (Props.masks props))).
Proof.
  split; [| split].
  - intros l Hl. unfold locale.
    cbn [withFirstDayOfWeek withMasks withTimezone Props.locale].
    by rewrite Hl.
  - intros o Ho. unfold locale.
    cbn [withFirstDayOfWeek withMasks Props.locale Props.timezone].
    by rewrite Ho.
  - intros i Hi. exists (propsConfig (Props.locale props) props).
    split.
    + unfold locale. rewrite Hi. by destruct i.
    + rewrite Hi. unfold propsConfig.
      split; [| split].
      * rewrite lookup_insert_eq. by destruct i.
      * by rewrite lookup_insert_ne, lookup_insert_eq.
      * by rewrite !lookup_insert_ne, lookup_singleton_eq.
Qed.

(** ** The context store *)

(** C9. [useBase] throws, with the message of the missing context,
    exactly when nothing is provided under the context key; a context
    that is provided is returned as it is, and nothing is returned when
    none is.  Below a component that ran [createBase], the context it
    built is the one returned. *)
Theorem useBase_throws_iff_missing (p : provides) :
  (forall c, inject contextKey p = Some c -> useBase p = inl c)
  /\ (inject contextKey p = None ->
      useBase p = inr missingContext /\ forall c, useBase p <> inl c)
  /\ ((exists msg, useBase p = inr msg) <-> inject contextKey p = None)
  /\ (forall msg, useBase p = inr msg ->
        msg = missingContext /\ (0 < String.length msg)%nat)
  /\ (forall props, useBase (createBase props p).2 = inl (context props)).
Proof.
  unfold useBase.
  split; [| split; [| split; [| split]]].
  - by intros c ->.
  - by intros ->.
  - destruct (inject contextKey p); split; try done.
    + by intros [msg Hmsg].
    + by exists missingContext.
  - intros msg. destruct (inject contextKey p); [done |].
    intros [= <-]. split; [done |]. cbn. lia.
  - intros props. cbn [createBase snd]. unfold inject, provide, provides.
    by rewrite lookup_insert_eq.
Qed.

End Properties.

(** * Further properties of [createBase] and [useBase] *)

Section Further.

Context `{External}.

Implicit Types (props : Props.t) (d m x : Date.t) (v w k : Z).

(** ** The store of provided contexts *)

(** X1. A [createBase] below another one replaces the context of the
    outer one: the store is the one that the inner [createBase] alone
    gives, and [useBase] returns the inner context. *)
Theorem nested_createBase_replaces_outer props1 props2 (p : provides) :
  (createBase props2 (createBase props1 p).2).2 = (createBase props2 p).2
  /\ useBase (createBase props2 (createBase props1 p).2).2
     = inl (context props2).
Proof.
  cbn [createBase snd]. unfold useBase, inject, provide, provides.
  split.
  - apply insert_insert_eq.
  - by rewrite lookup_insert_eq.
Qed.

(** X2. [createBase] writes the context key only: what is provided under
    another key is injected as before; and providing under another key
    does not change what [useBase] does. *)
Theorem createBase_writes_context_key_only
    props (p : provides) (key : string) (c : BaseContext.t) :
  key <> contextKey ->
  inject key (createBase props p).2 = inject key p
  /\ useBase (provide key c p) = useBase p
  /\ useBase (provide key c (createBase props p).2) = inl (context props).
Proof.
  intros Hkey. cbn [createBase snd].
  unfold useBase, inject, provide, provides.
  split; [| split].
  - by rewrite lookup_insert_ne.
  - by rewrite lookup_insert_ne.
  - by rewrite lookup_insert_ne, lookup_insert_eq.
Qed.

(** ** The locale prop and the published context *)


(** ** What the synthesized ranges are and are not *)

Lemma existsb_isAllTime_app (rs rs' : list DateRange) :
  existsb isAllTime (rs ++ rs') = existsb isAllTime rs || existsb isAllTime rs'.
Proof. apply existsb_app. Qed.

(** X4. A synthesized range is open on one side only: the range of the
    minimum has no start and has an end, the range of the maximum has a
    start and no end.  So [disabledDates] holds the all-time range only
    when the normalized user entries hold it. *)
Theorem synthesized_ranges_open_on_one_side props :
  (forall r, In r (synthesizedMinRange props) ->
     start r = None /\ is_Some (end_ r))
  /\ (forall r, In r (synthesizedMaxRange props) ->
       is_Some (start r) /\ end_ r = None)
  /\ existsb isAllTime (disabledDates props)
     = existsb isAllTime (normalizedDisabled props).
Proof.
  split; [| split].
  - intros r. unfold synthesizedMinRange.
    destruct (minBoundary props) as [m |]; [| done].
    intros [<- | []]. by split.
  - intros r. unfold synthesizedMaxRange.
    destruct (maxBoundary props) as [x |]; [| done].
    intros [<- | []]. by split.
  - unfold disabledDates, normalizedDisabled.
    rewrite !pushWhen_app, !existsb_isAllTime_app.
    destruct (minBoundary props), (maxBoundary props); cbn;
      by rewrite ?orb_false_r.
Qed.

(** ** Boundaries off the range of dates *)

Lemma shift_out_of_range d v k :
  Date.getTime d = Some v ->
  v + k < - Date.maxTime \/ Date.maxTime < v + k ->
  shift d k = Date.invalid.
Proof.
  intros Hd Hk. unfold shift, Date.new, Date.invalid. rewrite Hd.
  cbn [Date.plus Date.timeClip].
  destruct (Z.leb_spec (Z.abs (v + k)) Date.maxTime) as [Hle | _]; [lia | done].
Qed.

(** X5. A boundary that resolves to an invalid date, or to an instant
    less than one second from the limit of the dates on its side, still
    has its range pushed to [disabledDates], in its place; the bound of
    the range is the invalid date. *)
Theorem boundary_off_the_dates_gives_invalid_bound props :
  (forall m, minBoundary props = Some m ->
     (Date.getTime m = None
      \/ exists vm, Date.getTime m = Some vm /\ vm < - Date.maxTime + 1000) ->
     disabledDates props
     = normalizeDates (locale props) (Props.disabledDates props) true
       ++ [ {| start := None; end_ := Some Date.invalid |} ]
       ++ synthesizedMaxRange props)
  /\ (forall x, maxBoundary props = Some x ->
       (Date.getTime x = None
        \/ exists vx, Date.getTime x = Some vx /\ Date.maxTime - 1000 < vx) ->
       disabledDates props
       = normalizeDates (locale props) (Props.disabledDates props) true
         ++ synthesizedMinRange props
         ++ [ {| start := Some Date.invalid; end_ := None |} ]).
Proof.
  split.
  - intros m Hm Hoff.
    assert (Hs : shift m (- 1000) = Date.invalid).
    { destruct Hoff as [Hnan | (vm & Hvm & Hlow)].
      - by apply shift_invalid.
      - apply (shift_out_of_range m vm); [done | lia]. }
    rewrite disabledDates_app. unfold synthesizedMinRange, normalizedDisabled.
    rewrite Hm. unfold minRange. by rewrite Hs.
  - intros x Hx Hoff.
    assert (Hs : shift x 1000 = Date.invalid).
    { destruct Hoff as [Hnan | (vx & Hvx & Hhigh)].
      - by apply shift_invalid.
      - apply (shift_out_of_range x vx); [done | lia]. }
    rewrite disabledDates_app. unfold synthesizedMaxRange, normalizedDisabled.
    rewrite Hx. unfold maxRange. by rewrite Hs.
Qed.

(** ** Which instants are disabled *)

Lemma anyIncludes_disabledDates props v :
  anyIncludes (disabledDates props) v
  = anyIncludes (normalizedDisabled props) v
    || anyIncludes (synthesizedMinRange props) v
    || anyIncludes (synthesizedMaxRange props) v.
Proof. by rewrite disabledDates_app, !anyIncludes_app, orb_assoc. Qed.

Lemma anyIncludes_synthesizedMinRange props m vm v :
  minBoundary props = Some m -> Date.getTime m = Some vm ->
  - Date.maxTime + 1000 <= vm <= Date.maxTime ->
  anyIncludes (synthesizedMinRange props) v = bool_decide (v <= vm - 1000).
Proof.
  intros Hm Hvm Hr. unfold synthesizedMinRange. rewrite Hm.
  unfold anyIncludes. cbn [existsb]. rewrite orb_false_r.
  apply minRange_includes.
  rewrite (shift_valid m vm (- 1000)); [done | done | lia].
Qed.

Lemma anyIncludes_synthesizedMaxRange props x vx v :
  maxBoundary props = Some x -> Date.getTime x = Some vx ->
  - Date.maxTime <= vx <= Date.maxTime - 1000 ->
  anyIncludes (synthesizedMaxRange props) v = bool_decide (vx + 1000 <= v).
Proof.
  intros Hx Hvx Hr. unfold synthesizedMaxRange. rewrite Hx.
  unfold anyIncludes. cbn [existsb]. rewrite orb_false_r.
  apply maxRange_includes.
  rewrite (shift_valid x vx 1000); [done | done | lia].
Qed.

(** X6. When every boundary that is present resolves to a valid instant
    whose shifted second is a date, an instant later than one second
    before the minimum and earlier than one second after the maximum, so
    every instant from the minimum to the maximum, is in no synthesized
    range: whether [disabledDates] holds it is up to the user entries
    alone. *)
Theorem window_between_boundaries_left_to_user_entries props v :
  (forall m, minBoundary props = Some m ->
     exists vm, Date.getTime m = Some vm
                /\ - Date.maxTime + 1000 <= vm <= Date.maxTime
                /\ vm - 1000 < v) ->
  (forall x, maxBoundary props = Some x ->
     exists vx, Date.getTime x = Some vx
                /\ - Date.maxTime <= vx <= Date.maxTime - 1000
                /\ v < vx + 1000) ->
  anyIncludes (synthesizedMinRange props ++ synthesizedMaxRange props) v = false
  /\ anyIncludes (disabledDates props) v
     = anyIncludes (normalizedDisabled props) v.
Proof.
  intros Hmin Hmax.
  assert (Hn : anyIncludes (synthesizedMinRange props) v = false).
  { destruct (minBoundary props) as [m |] eqn:Hm.
    - destruct (Hmin m eq_refl) as (vm & Hvm & Hr & Hlt).
      rewrite (anyIncludes_synthesizedMinRange props m vm v Hm Hvm Hr).
      apply bool_decide_eq_false. lia.
    - unfold synthesizedMinRange. by rewrite Hm. }
  assert (Hx : anyIncludes (synthesizedMaxRange props) v = false).
  { destruct (maxBoundary props) as [x |] eqn:Hb.
    - destruct (Hmax x eq_refl) as (vx & Hvx & Hr & Hlt).
      rewrite (anyIncludes_synthesizedMaxRange props x vx v Hb Hvx Hr).
      apply bool_decide_eq_false. lia.
    - unfold synthesizedMaxRange. by rewrite Hb. }
  split.
  - by rewrite anyIncludes_app, Hn, Hx.
  - by rewrite anyIncludes_disabledDates, Hn, Hx, !orb_false_r.
Qed.

(** X7. The boundaries take no user entry away: the normalized user
    entries are a prefix of [disabledDates], each at its own index, and
    an instant that a user entry disables is disabled. *)
Theorem user_entries_are_kept props :
  normalizedDisabled props `prefix_of` disabledDates props
  /\ (forall (i : nat) r, normalizedDisabled props !! i = Some r ->
        disabledDates props !! i = Some r)
  /\ (forall v, anyIncludes (normalizedDisabled props) v = true ->
        anyIncludes (disabledDates props) v = true).
Proof.
  split; [| split].
  - rewrite disabledDates_app. by apply prefix_app_r.
  - intros i r Hi. rewrite disabledDates_app. by apply lookup_app_l_Some.
  - intros v Hv. by rewrite anyIncludes_disabledDates, Hv.
Qed.

(** X8. With boundaries at valid instants [vm] and [vx] whose shifted
    seconds are dates, an instant is disabled exactly when a user entry
    holds it, or it is at most [vm - 1s], or it is at least [vx + 1s];
    with one boundary only, the condition of the other side is left
    out. *)
Theorem disabled_instants props v :
  (forall m vm, minBoundary props = Some m -> Date.getTime m = Some vm ->
     - Date.maxTime + 1000 <= vm <= Date.maxTime ->
     maxBoundary props = None ->
     anyIncludes (disabledDates props) v
     = anyIncludes (normalizedDisabled props) v || bool_decide (v <= vm - 1000))
  /\ (forall x vx, maxBoundary props = Some x -> Date.getTime x = Some vx ->
       - Date.maxTime <= vx <= Date.maxTime - 1000 ->
       minBoundary props = None ->
       anyIncludes (disabledDates props) v
       = anyIncludes (normalizedDisabled props) v || bool_decide (vx + 1000 <= v))
  /\ (forall m vm x vx,
       minBoundary props = Some m -> Date.getTime m = Some vm ->
       - Date.maxTime + 1000 <= vm <= Date.maxTime ->
       maxBoundary props = Some x -> Date.getTime x = Some vx ->
       - Date.maxTime <= vx <= Date.maxTime - 1000 ->
       anyIncludes (disabledDates props) v
       = anyIncludes (normalizedDisabled props) v
         || bool_decide (v <= vm - 1000) || bool_decide (vx + 1000 <= v)).
Proof.
  split; [| split].
  - intros m vm Hm Hvm Hr Hnone.
    rewrite anyIncludes_disabledDates,
      (anyIncludes_synthesizedMinRange props m vm v Hm Hvm Hr).
    unfold synthesizedMaxRange. rewrite Hnone. cbn. by rewrite orb_false_r.
  - intros x vx Hx Hvx Hr Hnone.
    rewrite anyIncludes_disabledDates,
      (anyIncludes_synthesizedMaxRange props x vx v Hx Hvx Hr).
    unfold synthesizedMinRange. rewrite Hnone. cbn. by rewrite orb_false_r.
  - intros m vm x vx Hm Hvm Hrm Hx Hvx Hrx.
    by rewrite anyIncludes_disabledDates,
      (anyIncludes_synthesizedMinRange props m vm v Hm Hvm Hrm),
      (anyIncludes_synthesizedMaxRange props x vx v Hx Hvx Hrx).
Qed.

(** ** The dates of the synthesized ranges *)

Lemma timeClip_bounds (n : Date.number) w :
  Date.timeClip n = Some w -> n = Some w /\ - Date.maxTime <= w <= Date.maxTime.
Proof.
  unfold Date.timeClip. destruct n as [u |]; [| done].
  destruct (Z.leb_spec (Z.abs u) Date.maxTime) as [Hle | _]; [| done].
  intros [= <-]. split; [done | lia].
Qed.

Lemma shift_well_formed d k w :
  Date.getTime (shift d k) = Some w ->
  - Date.maxTime <= w <= Date.maxTime
  /\ exists u, Date.getTime d = Some u /\ w = u + k.
Proof.
  unfold shift. cbn [Date.new Date.getTime]. intros Hw.
  apply timeClip_bounds in Hw as [Hplus Hr]. split; [done |].
  destruct (Date.getTime d) as [u |]; [| done].
  injection Hplus as <-. by exists u.
Qed.

(** X9. Whatever dates the locale resolves the boundaries to, a valid
    date in a synthesized range is within the range of time values, and
    it is the boundary moved by one second: one second before the
    minimum for an end, one second after the maximum for a start. *)
Theorem synthesized_dates_one_second_off props (r : DateRange) d w :
  In r (synthesizedMinRange props ++ synthesizedMaxRange props) ->
  start r = Some d \/ end_ r = Some d ->
  Date.getTime d = Some w ->
  - Date.maxTime <= w <= Date.maxTime
  /\ ((exists m vm, minBoundary props = Some m /\ Date.getTime m = Some vm
                    /\ end_ r = Some d /\ w = vm - 1000)
      \/ (exists x vx, maxBoundary props = Some x /\ Date.getTime x = Some vx
                       /\ start r = Some d /\ w = vx + 1000)).
Proof.
  intros Hin Hside Hw. apply in_app_or in Hin as [Hin | Hin].
  - unfold synthesizedMinRange in Hin.
    destruct (minBoundary props) as [m |] eqn:Hm; [| done].
    destruct Hin as [<- | []]. cbn [minRange start end_] in Hside.
    destruct Hside as [Hside | Hside]; [done |]. injection Hside as <-.
    apply shift_well_formed in Hw as (Hr & vm & Hvm & ->).
    split; [done |]. left. exists m, vm. repeat split; try done; lia.
  - unfold synthesizedMaxRange in Hin.
    destruct (maxBoundary props) as [x |] eqn:Hx; [| done].
    destruct Hin as [<- | []]. cbn [maxRange start end_] in Hside.
    destruct Hside as [Hside | Hside]; [| done]. injection Hside as <-.
    apply shift_well_formed in Hw as (Hr & vx & Hvx & ->).
    split; [done |]. right. by exists x, vx.
Qed.

End Further.

(** * Examples on the UTC locale *)

#[local] Existing Instance Utc.external.

Ltac by_computation := vm_compute; repeat split; intros; discriminate.

Lemma Utc_normalizeDates_exact (ds : list DateSpec) (r : DateRange) :
  In (SpecRange r) ds -> In r (Utc.normalizeDates (Some ds) false).
Proof.
  intros Hin. unfold Utc.normalizeDates.
  exact (in_map (Utc.normalizeSpec false) ds (SpecRange r) Hin).
Defined.



(** [maxDateExact] at 12:34:56.789: the range starts one second later,
    at 12:34:57.789, not at a day boundary. *)
Lemma maxBoundary_range_witness :
  let props :=
    Utc.boundaries None None None (Some (Utc.mar10At 12 34 56 789)) None None in
  maxPresent props = true
  /\ disabledDates props
     = [ {| start := Some (Utc.mar10At 12 34 57 789); end_ := None |} ].
Proof.
  intros props.
  destruct (maxBoundary_range props eq_refl)
    as (x & _ & Hexact & _ & _ & Hdd & Hv & _).
  specialize (Hexact _ eq_refl).
  change (x = Utc.mar10At 12 34 56 789) in Hexact. subst x.
  destruct (Hv _ eq_refl) as (_ & Hshift).
  destruct Hshift as [Hshift _]; [by_computation |].
  rewrite Hshift in Hdd.
  split; [reflexivity |]. rewrite Hdd. vm_compute. reflexivity.
Defined.

(** Both variants on both sides: the two ranges of [disabledDates] are
    those of [minDateExact] and [maxDateExact], and the list is the same
    without the plain ones. *)
Lemma exact_variant_takes_precedence_witness :
  let props :=
    Utc.boundaries (Some (Utc.mar10At 0 0 0 0)) (Some (Utc.mar10At 8 30 0 0))
      (Some (Utc.mar10At 0 0 0 0)) (Some (Utc.mar10At 17 0 0 0)) None None in
  minBoundary props = Some (Utc.mar10At 8 30 0 0)
  /\ maxBoundary props = Some (Utc.mar10At 17 0 0 0)
  /\ disabledDates (withMinDate None props) = disabledDates props
  /\ disabledDates (withMaxDate None props) = disabledDates props
  /\ disabledDates props
     = [ {| start := None; end_ := Some (Utc.mar10At 8 29 59 0) |};
         {| start := Some (Utc.mar10At 17 0 1 0); end_ := None |} ].
Proof.
  intros props.
  destruct (exact_variant_takes_precedence props) as (Hmin & Hmax & Hboth).
  destruct (Hmin _ _ eq_refl eq_refl) as (Hm & _ & Hfree & _).
  destruct (Hmax _ _ eq_refl eq_refl) as (Hx & _ & Hfree' & _).
  split; [exact Hm |]. split; [exact Hx |].
  split; [apply Hfree |]. split; [apply Hfree' |].
  exact (Hboth _ _ _ _ eq_refl eq_refl eq_refl eq_refl
           (Some (Utc.mar10At 0 0 0 0)) (Some (Utc.mar10At 0 0 0 0))).
Defined.

(** No prop passed: nothing is disabled. *)
Lemma no_boundary_no_synthesized_range_witness :
  disabledDates Utc.noProps = []
  /\ AttributeConfig.dates (disabledAttributeConfig Utc.noProps) = []
  /\ anyIncludes (AttributeConfig.dates (disabledAttributeConfig Utc.noProps)) 0
     = false.
Proof.
  destruct (no_boundary_no_synthesized_range Utc.noProps
              eq_refl eq_refl eq_refl eq_refl) as (_ & _ & Habsent).
  destruct (Habsent eq_refl eq_refl) as (Hd & Ha & _ & _ & Hnone).
  split; [exact Hd |]. split; [exact Ha | apply Hnone].
Defined.

(** A timed range of [availableDates] keeps its two instants. *)
Lemma availableDates_all_day_off_witness :
  let r := {| start := Some (Utc.mar10At 9 15 0 0);
              end_ := Some (Utc.mar10At 17 45 30 0) |} in
  let props := Utc.boundaries None None None None None (Some [SpecRange r]) in
  In r (availableDates props).
Proof.
  intros r props.
  destruct (availableDates_all_day_off props) as (_ & _ & Hexact & _).
  apply (Hexact [SpecRange r] r).
  - intros ds' r'. apply Utc_normalizeDates_exact.
  - reflexivity.
  - left. reflexivity.
Defined.

(** One user entry and no boundary: the list is the normalized entry,
    snapped to the day.  The same entry with both boundaries: the entry,
    then the range of the minimum, then the range of the maximum. *)
Lemma disabledDates_append_order_witness :
  let entry := Some [SpecDate (Utc.mar10At 12 0 0 0)] in
  let day := {| start := Some (Utc.mar10At 0 0 0 0);
                end_ := Some (Utc.mar10At 23 59 59 999) |} in
  disabledDates (Utc.boundaries None None None None entry None) = [day]
  /\ disabledDates
       (Utc.boundaries (Some (Utc.mar10At 0 0 0 0)) None
          None (Some (Utc.mar10At 18 0 0 0)) entry None)
     = [ day;
         {| start := None; end_ := Some (Date.at_ (Utc.mar10 - 1000)) |};
         {| start := Some (Utc.mar10At 18 0 1 0); end_ := None |} ].
Proof.
  intros entry day. split.
  - destruct (disabledDates_append_order
                (Utc.boundaries None None None None entry None))
      as (_ & _ & _ & _ & Hnone).
    rewrite (Hnone eq_refl eq_refl). reflexivity.
  - destruct (disabledDates_append_order
                (Utc.boundaries (Some (Utc.mar10At 0 0 0 0)) None
                   None (Some (Utc.mar10At 18 0 0 0)) entry None))
      as (Happ & _).
    rewrite Happ. reflexivity.
Defined.

(** [minDateExact] two seconds after [maxDateExact]: every instant is in
    one of the two ranges. *)
Lemma inverted_boundaries_cover_from_1999ms_witness :
  let props :=
    Utc.boundaries None (Some (Utc.mar10At 0 0 2 0)) None
      (Some (Utc.mar10At 0 0 0 0)) None None in
  disabledDates props
  = [ {| start := None; end_ := Some (Utc.mar10At 0 0 1 0) |};
      {| start := Some (Utc.mar10At 0 0 1 0); end_ := None |} ]
  /\ forall v, - Date.maxTime <= v <= Date.maxTime ->
       anyIncludes (disabledDates props) v = true.
Proof.
  intros props.
  destruct (inverted_boundaries_cover_from_1999ms props
              (Utc.mar10At 0 0 2 0) (Utc.mar10At 0 0 0 0)
              (Utc.mar10 + clock 0 0 2 + 0) (Utc.mar10 + clock 0 0 0 + 0))
    as (Hsyn & _ & Hcover);
    [reflexivity | reflexivity | reflexivity | reflexivity
    | by_computation | by_computation |].
  split; [reflexivity |].
  change (disabledDates props)
    with (synthesizedMinRange props ++ synthesizedMaxRange props).
  rewrite Hsyn. apply Hcover. by_computation.
Defined.

(** C8 fails on the code: [minDateExact] one second after [maxDateExact].
    The minimum resolves later than the maximum, the two ranges are
    "up to [maxDateExact]" and "from [minDateExact]", and the instant half
    a second after [maxDateExact] is in no range of [disabledDates]. *)
Lemma inverted_boundaries_leave_a_gap :
  let props :=
    Utc.boundaries None (Some (Utc.mar10At 0 0 1 0)) None
      (Some (Utc.mar10At 0 0 0 0)) None None in
  minBoundary props = Some (Utc.mar10At 0 0 1 0)
  /\ maxBoundary props = Some (Utc.mar10At 0 0 0 0)
  /\ Utc.mar10 < Utc.mar10 + 1000
  /\ disabledDates props
     = [ {| start := None; end_ := Some (Utc.mar10At 0 0 0 0) |};
         {| start := Some (Utc.mar10At 0 0 1 0); end_ := None |} ]
  /\ - Date.maxTime <= Utc.mar10 + 500 <= Date.maxTime
  /\ anyIncludes (disabledDates props) (Utc.mar10 + 500) = false.
Proof.
  intros props. repeat split; try reflexivity; by_computation.
Qed.

(** The same with plain dates: [minDate] on the day after [maxDate].  The
    last second of the day of [maxDate], after 23:59:59.000, is in no
    range. *)
Example inverted_plain_dates_leave_a_gap :
  let props :=
    Utc.boundaries (Some (Utc.mar10At 12 0 0 0)) None
      (Some (Date.at_ (Utc.mar10 - msPerDay))) None None None in
  minBoundary props = Some (Date.at_ Utc.mar10)
  /\ maxBoundary props = Some (Date.at_ (Utc.mar10 - 1000))
  /\ anyIncludes (disabledDates props) (Utc.mar10 - 500) = false.
Proof. by vm_compute. Qed.

(** Nothing provided: [useBase] throws; after [createBase], it returns
    the context that was built. *)
Lemma useBase_throws_iff_missing_witness :
  useBase ∅ = inr missingContext
  /\ useBase (createBase Utc.noProps ∅).2 = inl (context Utc.noProps).
Proof.
  destruct (useBase_throws_iff_missing ∅) as (_ & Hmissing & _ & _ & Hcreated).
  destruct (Hmissing eq_refl) as [Hthrow _].
  split; [exact Hthrow | apply Hcreated].
Defined.

(** A [Locale] instance as the prop, with other locale props beside it:
    the locale is the instance.  A config object as the prop: the config
    of the new locale is the object, without [firstDayOfWeek]. *)
Lemma locale_prop_cases_witness :
  let props l :=
    Props.mk "blue" None None (Some l) (Some 2)
      (Some {[ "title" := "MMM YY" ]}) (Some "Europe/Warsaw")
      None None None None None None in
  locale (props (LocaleInstance Utc.custom)) = Utc.custom
  /\ locale (withFirstDayOfWeek (Some 5)
              (withMasks None (props (LocaleObject {[ "id" := VString "pl" ]}))))
     = locale (props (LocaleObject {[ "id" := VString "pl" ]})).
Proof.
  intros props. split.
  - destruct (locale_prop_cases (props (LocaleInstance Utc.custom)))
      as (Hinstance & _).
    destruct (Hinstance Utc.custom eq_refl) as [Hl _]. exact Hl.
  - destruct (locale_prop_cases (props (LocaleObject {[ "id" := VString "pl" ]})))
      as (_ & Hobject & _).
    destruct (Hobject _ eq_refl) as [_ Hfree]. apply Hfree.
Defined.

(** ** Further examples *)

(** Another key holds nothing after [createBase], and a value provided
    under it below [createBase] leaves the context in place. *)
Lemma createBase_writes_context_key_only_witness :
  inject "__vc_other__" (createBase Utc.noProps ∅).2 = None
  /\ useBase (provide "__vc_other__" (context Utc.noProps)
                (createBase Utc.noProps ∅).2)
     = inl (context Utc.noProps).
Proof.
  destruct (createBase_writes_context_key_only Utc.noProps ∅ "__vc_other__"
              (context Utc.noProps)) as (Hother & _ & Hbelow);
    [discriminate |].
  split; [exact Hother | exact Hbelow].
Defined.


(** Both boundaries and no user entry: no all-time range. *)
Lemma synthesized_ranges_open_on_one_side_witness :
  let props :=
    Utc.boundaries (Some (Utc.mar10At 0 0 0 0)) None
      (Some (Utc.mar10At 0 0 0 0)) None None None in
  existsb isAllTime (disabledDates props) = false.
Proof.
  intros props.
  destruct (synthesized_ranges_open_on_one_side props) as (_ & _ & Hall).
  rewrite Hall. reflexivity.
Defined.

(** An invalid [minDateExact], and a [maxDateExact] at the last date:
    both ranges are in the list, each with the invalid date as bound. *)
Lemma boundary_off_the_dates_gives_invalid_bound_witness :
  let props :=
    Utc.boundaries None (Some Date.invalid) None
      (Some (Date.at_ Date.maxTime)) None None in
  disabledDates props
  = [ {| start := None; end_ := Some Date.invalid |};
      {| start := Some Date.invalid; end_ := None |} ]
  /\ disabledDates props
     = synthesizedMinRange props
       ++ [ {| start := Some Date.invalid; end_ := None |} ].
Proof.
  intros props.
  destruct (boundary_off_the_dates_gives_invalid_bound props) as [Hmin Hmax].
  split.
  - rewrite (Hmin Date.invalid); [reflexivity | reflexivity | left; reflexivity].
  - rewrite (Hmax (Date.at_ Date.maxTime)); [reflexivity | reflexivity |].
    right. exists Date.maxTime. split; [reflexivity | by_computation].
Defined.

(** [minDate] and [maxDate] on the same day: noon of the day is not
    disabled. *)
Lemma window_between_boundaries_left_to_user_entries_witness :
  let props :=
    Utc.boundaries (Some (Utc.mar10At 9 0 0 0)) None
      (Some (Utc.mar10At 9 0 0 0)) None None None in
  minBoundary props = Some (Utc.mar10At 0 0 0 0)
  /\ maxBoundary props = Some (Utc.mar10At 23 59 59 0)
  /\ anyIncludes (disabledDates props) (Utc.mar10 + clock 12 0 0) = false.
Proof.
  intros props.
  destruct (window_between_boundaries_left_to_user_entries props
              (Utc.mar10 + clock 12 0 0)) as [_ Huser].
  - intros m Hm. injection Hm as <-.
    exists (Utc.mar10 + clock 0 0 0 + 0).
    split; [reflexivity | by_computation].
  - intros x Hx. injection Hx as <-.
    exists (Utc.mar10 + clock 23 59 59 + 0).
    split; [reflexivity | by_computation].
  - split; [reflexivity |]. split; [reflexivity |].
    rewrite Huser. reflexivity.
Defined.

(** A user entry with both boundaries: the entry is first in the list. *)
Lemma user_entries_are_kept_witness :
  let props :=
    Utc.boundaries (Some (Utc.mar10At 0 0 0 0)) None
      None (Some (Utc.mar10At 18 0 0 0))
      (Some [SpecDate (Utc.mar10At 12 0 0 0)]) None in
  disabledDates props !! 0%nat
  = Some {| start := Some (Utc.mar10At 0 0 0 0);
            end_ := Some (Utc.mar10At 23 59 59 999) |}.
Proof.
  intros props.
  destruct (user_entries_are_kept props) as (_ & Hindex & _).
  apply Hindex. reflexivity.
Defined.

(** [minDateExact] at 08:00 and [maxDateExact] at 18:00: 07:59:59 and
    18:00:01 are disabled, 07:59:59.001 and 18:00:00.999 are not. *)
Lemma disabled_instants_witness :
  let props :=
    Utc.boundaries None (Some (Utc.mar10At 8 0 0 0)) None
      (Some (Utc.mar10At 18 0 0 0)) None None in
  anyIncludes (disabledDates props) (Utc.mar10 + clock 7 59 59) = true
  /\ anyIncludes (disabledDates props) (Utc.mar10 + clock 7 59 59 + 1) = false
  /\ anyIncludes (disabledDates props) (Utc.mar10 + clock 18 0 0 + 999) = false
  /\ anyIncludes (disabledDates props) (Utc.mar10 + clock 18 0 1) = true.
Proof.
  intros props.
  assert (Hat : forall v,
             anyIncludes (disabledDates props) v
             = anyIncludes (normalizedDisabled props) v
               || bool_decide (v <= Utc.mar10 + clock 8 0 0 + 0 - 1000)
               || bool_decide (Utc.mar10 + clock 18 0 0 + 0 + 1000 <= v)).
  { intros v. destruct (disabled_instants props v) as (_ & _ & Hboth).
    apply (Hboth (Utc.mar10At 8 0 0 0) _ (Utc.mar10At 18 0 0 0));
      first [reflexivity | by_computation]. }
  repeat split; rewrite Hat; reflexivity.
Defined.

(** The end of the range of [minDate] on 2024-03-10 is a date, one
    second before the midnight that the minimum resolves to. *)
Lemma synthesized_dates_one_second_off_witness :
  let props :=
    Utc.boundaries (Some (Utc.mar10At 9 0 0 0)) None None None None None in
  let r := {| start := None; end_ := Some (Date.at_ (Utc.mar10 - 1000)) |} in
  - Date.maxTime <= Utc.mar10 - 1000 <= Date.maxTime
  /\ ((exists m vm, minBoundary props = Some m /\ Date.getTime m = Some vm
                    /\ end_ r = Some (Date.at_ (Utc.mar10 - 1000))
                    /\ Utc.mar10 - 1000 = vm - 1000)
      \/ (exists x vx, maxBoundary props = Some x /\ Date.getTime x = Some vx
                       /\ start r = Some (Date.at_ (Utc.mar10 - 1000))
                       /\ Utc.mar10 - 1000 = vx + 1000)).
Proof.
  intros props r.
  apply (synthesized_dates_one_second_off props r
           (Date.at_ (Utc.mar10 - 1000)) (Utc.mar10 - 1000));
    [left; reflexivity | right; reflexivity | reflexivity].
Defined.
